(** * Import-data dashboard: loader and filter engine of [data.py]

    A shallow embedding of [load_data] and [apply_filters] over a model of
    the pandas values they manipulate, followed by the properties of the
    specification that concern them.

    Conventions.
    - Text is ASCII ([string]); Python's [str.lower], [str.strip] and
      [re.IGNORECASE] are modelled on ASCII letters and white space.
    - A DataFrame is a header (column labels with their dtype) and a list of
      rows; a row is the list of its cells in header order.  [df[col]] reads
      the first column carrying the label.
    - Numbers are float64 ([PrimFloat.float]); NaN is pandas' missing number.
    - pandas runs without copy-on-write: the Series [df[col]] shares its
      values with [df].
    - A Timestamp is its number of nanoseconds since the epoch.
    - Calls into pandas and [re] whose result the source does not determine
      (file parsers, date and number parsers, number formatting, the part of
      the regular-expression language outside literals, [.] and [|]) are
      fields of the class [Pandas]. *)

From Stdlib Require Import ZArith Ascii String List Bool Lia.
From Stdlib Require Import Floats.PrimFloat.
From stdpp Require Import base list.
Import ListNotations.

Local Open Scope Z_scope.
Local Open Scope string_scope.
Local Open Scope list_scope.

(** ** Outcomes: a returned value or a raised exception *)

Inductive exn : Type :=
| UnboundLocalError          (* a local variable read before assignment *)
| ZeroDivisionError
| IndexError
| TypeError
| AttributeError
| KeyError
| ReError                    (* re.error: the pattern does not compile *)
| LibraryError (what : string) (* raised inside a pandas parser *)
| UnsupportedFormat.         (* named by the specification; no code path raises it *)

Inductive outcome (A : Type) : Type :=
| Ok (a : A)
| Raises (e : exn).
Arguments Ok {A} a.
Arguments Raises {A} e.

(** Sequencing stops at the first exception; [x ← m; k] is stdpp's notation
    for it. *)
#[global] Instance outcome_ret : MRet outcome := fun A a => Ok a.
#[global] Instance outcome_bind : MBind outcome := fun A B k m =>
  match m with
  | Ok a => k a
  | Raises e => Raises e
  end.

Fixpoint foldM {A S : Type} (step : S -> A -> outcome S) (s : S) (l : list A)
  : outcome S :=
  match l with
  | [] => Ok s
  | a :: l' => s' ← step s a; foldM step s' l'
  end.

(** ** Text: the part of Python's [str] the source uses *)

Module Text.

Definition chars (s : string) : list ascii := list_ascii_of_string s.
Definition text (l : list ascii) : string := string_of_list_ascii l.

(** [str.lower] on one character. *)
Definition lower_char (c : ascii) : ascii :=
  let n := nat_of_ascii c in
  if ((65 <=? n) && (n <=? 90))%nat then ascii_of_nat (n + 32) else c.

Definition lower_chars (l : list ascii) : list ascii := map lower_char l.

Definition lower (s : string) : string := text (lower_chars (chars s)).

(** White space as [str.strip] sees it: tab to carriage return, the four
    separators 28..31 and the blank. *)
Definition is_space (c : ascii) : bool :=
  let n := nat_of_ascii c in
  (((9 <=? n) && (n <=? 13)) || ((28 <=? n) && (n <=? 32)))%nat.

Fixpoint lstrip (l : list ascii) : list ascii :=
  match l with
  | c :: l' => if is_space c then lstrip l' else l
  | [] => []
  end.

Definition strip_chars (l : list ascii) : list ascii :=
  rev (lstrip (rev (lstrip l))).

Definition strip (s : string) : string := text (strip_chars (chars s)).

Fixpoint starts_with (l p : list ascii) : bool :=
  match p, l with
  | [], _ => true
  | x :: p', y :: l' => Ascii.eqb x y && starts_with l' p'
  | _ :: _, [] => false
  end.

(** [s.endswith(suffix)]. *)
Definition endswith (s suffix : string) : bool :=
  starts_with (rev (chars s)) (rev (chars suffix)).

(** [sep.join(parts)]. *)
Fixpoint join (sep : string) (parts : list string) : string :=
  match parts with
  | [] => ""
  | [p] => p
  | p :: rest => p ++ sep ++ join sep rest
  end.

(** The specification's reading of a free-text filter: the needle occurs in
    the haystack once both are lower-cased. *)
Definition contains_ci (needle hay : string) : Prop :=
  exists pre post : list ascii,
    lower_chars (chars hay) = pre ++ lower_chars (chars needle) ++ post.

(** The text after the last dot of a file name, if it has a dot. *)
Fixpoint after_last_dot (rev_name : list ascii) (acc : list ascii)
  : option (list ascii) :=
  match rev_name with
  | [] => None
  | c :: r => if Ascii.eqb c "." then Some acc else after_last_dot r (c :: acc)
  end.

Definition extension (name : string) : option string :=
  option_map text (after_last_dot (rev (chars name)) []).

End Text.

(** ** Regular expressions: the fragment of [re] that is modelled

    A pattern built from ordinary characters, [.] and [|] is an alternation
    of sequences of atoms.  [search] is [re.search]: some alternative matches
    at some position of the subject. *)

Module Re.

Inductive atom : Type :=
| Lit (c : ascii)
| Dot.

Definition alternative : Type := list atom.

(** The characters with a meaning of their own in a pattern. *)
Definition is_special (c : ascii) : bool :=
  existsb (Ascii.eqb c) (Text.chars ".^$*+?{}[]\|()").

Definition cons_head (a : atom) (alts : list alternative) : list alternative :=
  match alts with
  | [] => [[a]]
  | alt :: rest => (a :: alt) :: rest
  end.

(** [None]: the pattern uses syntax outside the fragment. *)
Fixpoint parse (p : list ascii) : option (list alternative) :=
  match p with
  | [] => Some [[]]
  | c :: p' =>
      match parse p' with
      | None => None
      | Some alts =>
          if Ascii.eqb c "|" then Some ([] :: alts)
          else if Ascii.eqb c "." then Some (cons_head Dot alts)
          else if is_special c then None
          else Some (cons_head (Lit c) alts)
      end
  end.

Definition newline : ascii := ascii_of_nat 10.

Definition atom_matches (ignorecase : bool) (a : atom) (c : ascii) : bool :=
  match a with
  | Dot => negb (Ascii.eqb c newline)
  | Lit x =>
      if ignorecase then Ascii.eqb (Text.lower_char x) (Text.lower_char c)
      else Ascii.eqb x c
  end.

Fixpoint match_here (ignorecase : bool) (alt : alternative) (s : list ascii)
  : bool :=
  match alt, s with
  | [], _ => true
  | a :: alt', c :: s' => atom_matches ignorecase a c && match_here ignorecase alt' s'
  | _ :: _, [] => false
  end.

Fixpoint search (ignorecase : bool) (alts : list alternative) (s : list ascii)
  : bool :=
  existsb (fun alt => match_here ignorecase alt s) alts
  || match s with
     | [] => false
     | _ :: s' => search ignorecase alts s'
     end.

End Re.

(** ** Values, Series and DataFrames *)

Inductive dtype : Type :=
| DObject       (* object: strings, possibly mixed with NaN *)
| DFloat        (* float64 *)
| DDatetime     (* datetime64[ns] *)
| DCategory.    (* category *)

Definition dtype_eqb (a b : dtype) : bool :=
  match a, b with
  | DObject, DObject | DFloat, DFloat
  | DDatetime, DDatetime | DCategory, DCategory => true
  | _, _ => false
  end.

(** What a cell can hold.  The parsers write NaN, never [None], for a
    missing value. *)
Inductive cell : Type :=
| Str (s : string)
| Num (x : float)
| Timestamp (t : Z)
| NaT.

(** The Python values a criterion is made of: [None], a [datetime.date]
    (days since the epoch) or anything a cell can hold. *)
Inductive pyval : Type :=
| PyNone
| PyDate (d : Z)
| PyCell (c : cell).

(** A row is the list of its cells. *)
Abbreviation row := (list cell).

Record Series : Type := mkSeries { sdtype : dtype; values : list cell }.

Record DataFrame : Type := mkFrame {
  header : list (string * dtype);
  rows : list row
}.

(** [df.columns] *)
Definition columns (df : DataFrame) : list string := map fst (header df).

(** [col in df.columns] *)
Definition in_columns (col : string) (df : DataFrame) : bool :=
  existsb (String.eqb col) (columns df).

Fixpoint index_of (col : string) (labels : list string) : option nat :=
  match labels with
  | [] => None
  | l :: rest => if String.eqb col l then Some 0%nat
                 else option_map S (index_of col rest)
  end.

Definition nan_cell : cell := Num nan.

Definition cell_at (j : nat) (r : row) : cell := default nan_cell (r !! j).

Definition dtype_at (j : nat) (df : DataFrame) : dtype :=
  default DObject (snd <$> header df !! j).

(** [pd.isna] on a cell. *)
Definition isna (c : cell) : bool :=
  match c with
  | NaT => true
  | Num x => is_nan x
  | Str _ | Timestamp _ => false
  end.

(** [df[col]]; an absent label is a [KeyError]. *)
Definition getitem (df : DataFrame) (col : string) : outcome Series :=
  match index_of col (columns df) with
  | Some j => Ok (mkSeries (dtype_at j df) (map (cell_at j) (rows df)))
  | None => Raises KeyError
  end.

(** [df[col] = s]: replaces the column when the label exists, appends it
    otherwise. *)
Definition setitem (df : DataFrame) (col : string) (s : Series) : DataFrame :=
  match index_of col (columns df) with
  | Some j =>
      mkFrame (<[j := (col, sdtype s)]> (header df))
              (zip_with (fun r v => <[j := v]> r) (rows df) (values s))
  | None =>
      mkFrame (header df ++ [(col, sdtype s)])
              (zip_with (fun r v => r ++ [v]) (rows df) (values s))
  end.

(** Boolean indexing [l[mask]]. *)
Fixpoint select {A : Type} (l : list A) (mask : list bool) : list A :=
  match l, mask with
  | x :: l', b :: mask' => if b then x :: select l' mask' else select l' mask'
  | _, _ => []
  end.

(** [df[mask]] *)
Definition bool_index (df : DataFrame) (mask : list bool) : DataFrame :=
  mkFrame (header df) (select (rows df) mask).

(** [df.copy()]: a frame is a value, its copy is the same value. *)
Definition copy (df : DataFrame) : DataFrame := df.

Definition rectangular (df : DataFrame) : Prop :=
  Forall (fun r : row => length r = length (header df)) (rows df).

(** An uploaded file: its name and its bytes. *)
Record UploadedFile : Type := mkFile { name : string; getvalue : string }.

(** ** The calls into pandas and [re] that are taken as given *)

Class Pandas : Type := {
  (** [pd.read_csv(io.StringIO(bytes.decode("utf-8")), sep=r'\s{2,}',
      engine='python', skipinitialspace=True)] *)
  read_csv : string -> outcome DataFrame;
  (** [pd.read_excel(file, engine='calamine')] *)
  read_excel : UploadedFile -> outcome DataFrame;
  (** [pd.to_datetime(series, errors='coerce', dayfirst=b)]: one entry per
      value, [None] for NaT. *)
  to_datetime : bool -> list cell -> list (option Z);
  (** [pd.to_numeric(series, errors='coerce')]: one float per value, NaN
      where the value is no number. *)
  to_numeric : list cell -> list float;
  (** [pd.to_datetime(x)] on a scalar that is neither a date nor a
      Timestamp. *)
  to_datetime_scalar : pyval -> outcome (option Z);
  (** [str(x)] for a cell that is not a string. *)
  py_str : cell -> string;
  (** Equality as [Series.isin] and [Series.nunique] hash values, for pairs
      that are not two strings. *)
  py_equal : cell -> pyval -> bool;
  (** [re.compile(pattern, flags)] followed by [search], for a pattern
      outside the modelled fragment; the flag is [re.IGNORECASE]. *)
  re_compile_other : string -> bool -> outcome (string -> bool);

  read_csv_rectangular :
    forall text df, read_csv text = Ok df -> rectangular df;
  read_excel_rectangular :
    forall file df, read_excel file = Ok df -> rectangular df;
  to_datetime_length :
    forall dayfirst vs, length (to_datetime dayfirst vs) = length vs;
  to_numeric_length :
    forall vs, length (to_numeric vs) = length vs
}.

(** ** Criteria *)

Inductive criterion : Type :=
| CNone                       (* None *)
| CStr (s : string)           (* a str *)
| CList (vs : list pyval)     (* a list *)
| CTuple (vs : list pyval).   (* a tuple *)

Definition is_none (c : criterion) : bool :=
  match c with CNone => true | _ => false end.

(** [isinstance(c, (str, list, tuple))] *)
Definition is_str_list_tuple (c : criterion) : bool :=
  match c with CStr _ | CList _ | CTuple _ => true | CNone => false end.

(** Python truth value. *)
Definition truthy (c : criterion) : bool :=
  match c with
  | CNone => false
  | CStr s => negb (String.eqb s "")
  | CList vs | CTuple vs => match vs with [] => false | _ :: _ => true end
  end.

Definition is_py_none (v : pyval) : bool :=
  match v with PyNone => true | _ => false end.

(** [c[i]] *)
Definition py_index (c : criterion) (i : nat) : outcome pyval :=
  match c with
  | CNone => Raises TypeError
  | CStr s =>
      match Text.chars s !! i with
      | Some ch => Ok (PyCell (Str (String ch EmptyString)))
      | None => Raises IndexError
      end
  | CList vs | CTuple vs =>
      match vs !! i with
      | Some v => Ok v
      | None => Raises IndexError
      end
  end.

(** [k.lower()] for an element of a criterion: only a str has the method. *)
Definition py_lower (v : pyval) : outcome string :=
  match v with
  | PyCell (Str k) => Ok (Text.lower k)
  | _ => Raises AttributeError
  end.

Fixpoint mapM {A B : Type} (f : A -> outcome B) (l : list A) : outcome (list B) :=
  match l with
  | [] => Ok []
  | a :: l' => b ← f a; bs ← mapM f l'; Ok (b :: bs)
  end.

(** [[k.lower() for k in c]]: iterating a str yields its characters. *)
Definition lower_each (c : criterion) : outcome (list string) :=
  match c with
  | CNone => Raises TypeError
  | CStr s =>
      Ok (map (fun ch => Text.lower (String ch EmptyString)) (Text.chars s))
  | CList vs | CTuple vs => mapM py_lower vs
  end.

Definition ns_per_day : Z := 86400000000000.

Section Engine.
Context {pandas : Pandas}.

(** [pd.to_datetime(x)] on a scalar: a date is the Timestamp of its
    midnight; [None] stands for NaT. *)
Definition pd_to_datetime (v : pyval) : outcome (option Z) :=
  match v with
  | PyDate d => Ok (Some (d * ns_per_day))
  | PyCell (Timestamp t) => Ok (Some t)
  | PyCell NaT => Ok None
  | _ => to_datetime_scalar v
  end.

(** [series.astype(str)] *)
Definition str_of_cell (c : cell) : string :=
  match c with
  | Str s => s
  | _ => py_str c
  end.

Definition astype_str (s : Series) : list string := map str_of_cell (values s).

(** [re.compile(pattern, re.IGNORECASE if ignorecase else 0).search] *)
Definition re_compile (pattern : string) (ignorecase : bool)
  : outcome (string -> bool) :=
  match Re.parse (Text.chars pattern) with
  | Some alts => Ok (fun subject => Re.search ignorecase alts (Text.chars subject))
  | None => re_compile_other pattern ignorecase
  end.

(** [strings.str.contains(pat, case=case, na=False)], on strings that hold no
    missing value; [regex=True] is pandas' default. *)
Definition str_contains (strings : list string) (pat : string) (case : bool)
  : outcome (list bool) :=
  found ← re_compile pat (negb case);
  Ok (map found strings).

Definition value_equal (c : cell) (v : pyval) : bool :=
  match c, v with
  | Str a, PyCell (Str b) => String.eqb a b
  | _, _ => py_equal c v
  end.

(** [series.isin(vs)] *)
Definition isin (s : Series) (vs : list pyval) : list bool :=
  map (fun c => existsb (value_equal c) vs) (values s).

(** A datetime64 value against a Timestamp bound; any comparison with NaT
    is false. *)
Definition timestamp_compare (cmp : Z -> Z -> bool) (bound : option Z) (c : cell)
  : bool :=
  match c, bound with
  | Timestamp t, Some b => cmp t b
  | _, _ => false
  end.

(** The same for a value of an object column, where a string or a number
    cannot be ordered against a Timestamp. *)
Definition object_compare (cmp : Z -> Z -> bool) (bound : option Z) (c : cell)
  : outcome bool :=
  match c with
  | Timestamp _ | NaT => Ok (timestamp_compare cmp bound c)
  | Str _ | Num _ => Raises TypeError
  end.

(** [series >= bound] and [series <= bound]: a datetime64 column compares
    value by value, an object column does so as long as every value is a
    Timestamp or NaT, any other column is an invalid comparison. *)
Definition series_compare (cmp : Z -> Z -> bool) (s : Series) (bound : option Z)
  : outcome (list bool) :=
  match sdtype s with
  | DDatetime => Ok (map (timestamp_compare cmp bound) (values s))
  | DObject => mapM (object_compare cmp bound) (values s)
  | DFloat | DCategory => Raises TypeError
  end.

(** [m1 & m2] *)
Definition mask_and (m1 m2 : list bool) : list bool := zip_with andb m1 m2.

(** The body of the loop of [apply_filters] for one item of
    [filters.items()]. *)
Definition filter_step (filtered_df : DataFrame) (item : string * criterion)
  : outcome DataFrame :=
  let '(column, criterion) := item in
  if is_none criterion || (is_str_list_tuple criterion && negb (truthy criterion))
  then Ok filtered_df
  else if negb (in_columns column filtered_df)
          && negb (existsb (String.eqb column) ["DATE_RANGE"; "AWP_MACHINES"])
  then Ok filtered_df
  else if String.eqb column "DATE_RANGE" then
    go ← (if in_columns "DATE" filtered_df then
            c0 ← py_index criterion 0;
            if is_py_none c0 then Ok false
            else c1 ← py_index criterion 1; Ok (negb (is_py_none c1))
          else Ok false);
    if go : bool then
      c0 ← py_index criterion 0;
      start_date ← pd_to_datetime c0;
      c1 ← py_index criterion 1;
      end_date ← pd_to_datetime c1;
      dates ← getitem filtered_df "DATE";
      after ← series_compare Z.geb dates start_date;
      dates' ← getitem filtered_df "DATE";
      before ← series_compare Z.leb dates' end_date;
      Ok (bool_index filtered_df (mask_and after before))
    else Ok filtered_df
  else if String.eqb column "AWP_MACHINES" then
    if in_columns "PRODUCT DESCRIPTION" filtered_df && truthy criterion then
      keywords ← lower_each criterion;
      let awp_pattern := Text.join "|" keywords in
      descriptions ← getitem filtered_df "PRODUCT DESCRIPTION";
      mask ← str_contains (astype_str descriptions) awp_pattern false;
      Ok (bool_index filtered_df mask)
    else Ok filtered_df
  else
    match criterion with
    | CStr pat =>
        s ← getitem filtered_df column;
        mask ← str_contains (astype_str s) pat false;
        Ok (bool_index filtered_df mask)
    | CList vs | CTuple vs =>
        if in_columns column filtered_df then
          s ← getitem filtered_df column;
          Ok (bool_index filtered_df (isin s vs))
        else Ok filtered_df
    | CNone => Ok filtered_df
    end.

(** [apply_filters(df, filters)]; [filters] lists [filters.items()] in the
    dict's order. *)
Definition apply_filters (df : DataFrame) (filters : list (string * criterion))
  : outcome DataFrame :=
  foldM filter_step (copy df) filters.

End Engine.

(** ** The loader *)


Definition col_mapping : list (string * string) :=
  [ ("INDIAN IMPORTER NAME", "INDIAN IMPORTER NAME");
    ("FOREIGN EXPORTER NAME", "FOREIGN EXPORTER NAME");
    ("FOREIGN COUNTRY", "FOREIGN COUNTRY");
    ("FOREIGN EXPORTER CITY", "FOREIGN EXPORTER CITY");
    ("INDIAN PORT", "INDIAN PORT");
    ("CHA NAME", "CHA NAME");
    ("MODE", "MODE");
    ("CITY", "CITY");
    ("PRODUCT DESCRIPTION", "PRODUCT DESCRIPTION");
    ("DATE", "DATE");
    ("QUANTITY", "QUANTITY");
    ("UNIT", "UNIT");
    ("TOTAL ASS VALUE INR", "TOTAL ASS VALUE INR");
    ("DUTY IN INR", "DUTY IN INR");
    ("TOTAL ASS VALUE IN FOREIGN CURRENCY", "TOTAL ASS VALUE IN FOREIGN CURRENCY");
    ("FOREIGN CURRENCY", "FOREIGN CURRENCY");
    ("FOREIGN PORT", "FOREIGN PORT") ].

Definition numeric_cols : list string :=
  [ "QUANTITY"; "TOTAL ASS VALUE INR"; "UNIT INR";
    "TOTAL ASS VALUE IN FOREIGN CURRENCY"; "UNIT RATE IN FOREIGN CURRENCY";
    "DUTY IN INR" ].

Definition string_cols_to_categorize : list string :=
  [ "INDIAN IMPORTER NAME"; "FOREIGN EXPORTER NAME"; "INDIAN PORT";
    "FOREIGN COUNTRY"; "CHA NAME"; "FOREIGN EXPORTER CITY"; "MODE"; "CITY";
    "FOREIGN PORT"; "UNIT"; "FOREIGN CURRENCY" ].

(** [df.columns = labels] *)
Definition set_columns (df : DataFrame) (labels : list string) : DataFrame :=
  mkFrame (zip_with (fun l h => (l, snd h)) labels (header df)) (rows df).

Fixpoint assoc (k : string) (m : list (string * string)) : option string :=
  match m with
  | [] => None
  | (k', v) :: m' => if String.eqb k k' then Some v else assoc k m'
  end.

(** [df.rename(columns=m, inplace=True)] *)
Definition rename (df : DataFrame) (m : list (string * string)) : DataFrame :=
  mkFrame (map (fun h => (default (fst h) (assoc (fst h) m), snd h)) (header df))
          (rows df).

(** [df.dropna(subset=[col], inplace=True)] *)
Definition dropna (df : DataFrame) (col : string) : outcome DataFrame :=
  match index_of col (columns df) with
  | Some j =>
      Ok (mkFrame (header df)
                  (List.filter (fun r => negb (isna (cell_at j r))) (rows df)))
  | None => Raises KeyError
  end.

Definition datetime_series (parsed : list (option Z)) : Series :=
  mkSeries DDatetime
    (map (fun d => match d with Some t => Timestamp t | None => NaT end) parsed).

Definition float_series (xs : list float) : Series :=
  mkSeries DFloat (map Num xs).

(** [series.fillna(x)] on a float64 column. *)
Definition fillna (s : Series) (x : float) : Series :=
  mkSeries (sdtype s)
    (map (fun c => if isna c then Num x else c) (values s)).

(** [series.astype('category')]: the column is stored as codes into its
    distinct values and reads back as the values it had; [astype(str)] and
    [isin] see those values. *)
Definition astype_category (s : Series) : Series :=
  mkSeries DCategory (values s).

Section Loader.
Context {pandas : Pandas}.

Definition cell_equal (a b : cell) : bool := value_equal a (PyCell b).

Fixpoint distinct (seen : list cell) (l : list cell) : list cell :=
  match l with
  | [] => seen
  | c :: l' =>
      if existsb (cell_equal c) seen then distinct seen l'
      else distinct (seen ++ [c]) l'
  end.

(** [series.nunique()]: the number of distinct values that are not missing. *)
Definition nunique (s : Series) : nat :=
  length (distinct [] (List.filter (fun c => negb (isna c)) (values s))).

(** Reading a local variable that may still be unbound. *)
Definition local (df : option DataFrame) : outcome DataFrame :=
  match df with
  | Some d => Ok d
  | None => Raises UnboundLocalError
  end.

(** The date block of [load_data]. *)
Definition coerce_date (df : DataFrame) : outcome DataFrame :=
  if in_columns "DATE" df then
    dates ← getitem df "DATE";
    let df := setitem df "DATE" (datetime_series (to_datetime true (values dates))) in
    dropna df "DATE"
  else Ok df.

(** [df[col].fillna(x, inplace=True)].  Without copy-on-write, [df[col]] is
    a Series that shares its values with the frame it was taken from, and
    filling it in place changes the column of [df]: the store here is the
    frame, the Series a reference to its column [col]. *)
Definition fillna_inplace (df : DataFrame) (col : string) (x : float)
  : outcome DataFrame :=
  view ← getitem df col;
  Ok (setitem df col (fillna view x)).

(** The body of the loop over [numeric_cols]. *)
Definition numeric_step (df : DataFrame) (col : string) : outcome DataFrame :=
  if in_columns col df then
    raw ← getitem df col;
    let df := setitem df col (float_series (to_numeric (values raw))) in
    fillna_inplace df col 0%float
  else Ok df.

(** [series.nunique() / len(series) < 0.5]: the quotient of two ints is
    below one half exactly when twice the numerator is below the
    denominator; dividing by zero raises. *)
Definition ratio_below_half (s : Series) : outcome bool :=
  match length (values s) with
  | O => Raises ZeroDivisionError
  | S _ => Ok (2 * nunique s <? length (values s))%nat
  end.

(** The body of the loop over [string_cols_to_categorize]. *)
Definition categorize_step (df : DataFrame) (col : string) : outcome DataFrame :=
  if in_columns col df then
    s ← getitem df col;
    if dtype_eqb (sdtype s) DObject then
      low ← ratio_below_half s;
      if low : bool then
        s' ← getitem df col;
        Ok (setitem df col (astype_category s'))
      else Ok df
    else Ok df
  else Ok df.

(** The loop over [numeric_cols]. *)
Definition coerce_numeric (df : DataFrame) : outcome DataFrame :=
  foldM numeric_step df numeric_cols.

(** The loop over [string_cols_to_categorize]. *)
Definition compact (df : DataFrame) : outcome DataFrame :=
  foldM categorize_step df string_cols_to_categorize.

(** The column-name block: strip the labels, then rename through
    [col_mapping] restricted to the labels present. *)
Definition normalize_columns (df : DataFrame) : DataFrame :=
  let df := set_columns df (map Text.strip (columns df)) in
  rename df (List.filter (fun kv => in_columns (fst kv) df) col_mapping).

(** The format dispatch: the binding of the local [df] after the
    [if]/[elif], which has no [else]. *)
Definition read_file (uploaded_file : UploadedFile) : outcome (option DataFrame) :=
  if Text.endswith (name uploaded_file) ".csv"
     || Text.endswith (name uploaded_file) ".txt" then
    df ← read_csv (getvalue uploaded_file); Ok (Some df)
  else if Text.endswith (name uploaded_file) ".xlsx" then
    df ← read_excel uploaded_file; Ok (Some df)
  else Ok None.

(** [load_data(uploaded_file)] *)
Definition load_data (uploaded_file : UploadedFile) : outcome DataFrame :=
  binding ← read_file uploaded_file;
  df ← local binding;
  let df := normalize_columns df in
  df ← coerce_date df;
  df ← coerce_numeric df;
  df ← compact df;
  Ok df.

End Loader.

(** ** The page: from the widgets to the criteria *)

(** What the sidebar widgets return: the two ends of the date slider (dates,
    as days since the epoch), the five text inputs, the six multiselects
    over the values of a column and the multiselect over [AWP_KEYWORDS]. *)
Record Widgets : Type := mkWidgets {
  selected_date_range : Z * Z;
  indian_importer_name_filter : string;
  address_filter : string;
  foreign_exporter_name_filter : string;
  cha_name_filter : string;
  general_product_desc_filter : string;
  selected_indian_ports : list cell;
  selected_foreign_countries : list cell;
  selected_foreign_exporter_cities : list cell;
  selected_foreign_ports : list cell;
  selected_modes : list cell;
  selected_indian_cities : list cell;
  selected_awp_keywords : list string
}.

(** A Python list of values of a column. *)
Definition py_list (vs : list cell) : criterion := CList (map PyCell vs).

(** A Python list of strs. *)
Definition py_strs (ks : list string) : criterion :=
  CList (map (fun k => PyCell (Str k)) ks).

(** The tuple of two dates the slider returns. *)
Definition py_dates (range : Z * Z) : criterion :=
  CTuple [PyDate (fst range); PyDate (snd range)].

(** The dict [filters] of the page, as its items in the order of the
    literal. *)
Definition build_filters (w : Widgets) : list (string * criterion) :=
  [ ("DATE_RANGE", py_dates (selected_date_range w));
    ("INDIAN IMPORTER NAME", CStr (indian_importer_name_filter w));
    ("ADDRESS", CStr (address_filter w));
    ("FOREIGN EXPORTER NAME", CStr (foreign_exporter_name_filter w));
    ("INDIAN PORT", py_list (selected_indian_ports w));
    ("FOREIGN COUNTRY", py_list (selected_foreign_countries w));
    ("CHA NAME", CStr (cha_name_filter w));
    ("FOREIGN EXPORTER CITY", py_list (selected_foreign_exporter_cities w));
    ("FOREIGN PORT", py_list (selected_foreign_ports w));
    ("MODE", py_list (selected_modes w));
    ("CITY", py_list (selected_indian_cities w));
    ("AWP_MACHINES", py_strs (selected_awp_keywords w));
    ("PRODUCT DESCRIPTION", CStr (general_product_desc_filter w)) ].

(** [series.min()] and [series.max()] of a datetime64 column, given as its
    Timestamps with [None] for NaT: NaT is skipped, and the result is NaT
    when no Timestamp is left. *)
Fixpoint min_timestamp (dates : list (option Z)) : option Z :=
  match dates with
  | [] => None
  | None :: rest => min_timestamp rest
  | Some t :: rest =>
      match min_timestamp rest with
      | Some m => Some (Z.min t m)
      | None => Some t
      end
  end.

Fixpoint max_timestamp (dates : list (option Z)) : option Z :=
  match dates with
  | [] => None
  | None :: rest => max_timestamp rest
  | Some t :: rest =>
      match max_timestamp rest with
      | Some m => Some (Z.max t m)
      | None => Some t
      end
  end.

(** [timestamp.date()]: the day the Timestamp falls on. *)
Definition date_of (t : Z) : Z := t / ns_per_day.

(** The value the date slider starts with.  [date_column] is the DATE
    column of the loaded table, a datetime64 column, or [None] when the
    table has none; [today_range] is the pair (1 January of last year,
    today) the page falls back to. *)
Definition default_date_range (date_column : option (list (option Z)))
    (today_range : Z * Z) : Z * Z :=
  match date_column with
  | Some dates =>
      match dates, min_timestamp dates, max_timestamp dates with
      | _ :: _, Some lo, Some hi => (date_of lo, date_of hi)
      | _, _, _ => today_range
      end
  | None => today_range
  end.

(** The widgets as they are when the page is first drawn: the slider at its
    default, every text input empty, nothing selected. *)
Definition initial_widgets (range : Z * Z) : Widgets :=
  mkWidgets range "" "" "" "" "" [] [] [] [] [] [] [].

(** ** Vocabulary of the properties *)

(** A frame narrowed to the rows that satisfy a predicate. *)
Definition keep (p : row -> bool) (df : DataFrame) : DataFrame :=
  mkFrame (header df) (List.filter p (rows df)).

(** [narrows df df']: [df'] has the header of [df] and its rows are rows of
    [df], in the same order. *)
Definition narrows (df df' : DataFrame) : Prop :=
  header df' = header df /\ sublist (rows df') (rows df).

(** The criteria that [apply_filters] passes over: [None], the empty str,
    the empty list and the empty tuple. *)
Definition empty_criteria : list criterion := [CNone; CStr ""; CList []; CTuple []].

(** The DATE column, when there is one, is a datetime64 column: what the
    date block of [load_data] leaves behind. *)
Definition date_typed (df : DataFrame) : bool :=
  match index_of "DATE" (columns df) with
  | Some j => dtype_eqb (dtype_at j df) DDatetime
  | None => true
  end.

(** The file names the dispatch of [load_data] has a branch for. *)
Definition supported_extensions : list (option string) :=
  [Some "csv"; Some "txt"; Some "xlsx"].


(** A Timestamp within [start, end_], both bounds included. *)
Definition in_range (start end_ : Z) (c : cell) : bool :=
  match c with
  | Timestamp t => ((start <=? t) && (t <=? end_))%Z
  | _ => false
  end.

(** The rows a DATE_RANGE criterion with both bounds keeps. *)
Definition dated_within (start end_ : Z) (df : DataFrame) : DataFrame :=
  match index_of "DATE" (columns df) with
  | Some j => keep (fun r => in_range start end_ (cell_at j r)) df
  | None => df
  end.

(** The values of the column at position [j]. *)
Definition column_values (j : nat) (df : DataFrame) : list cell :=
  map (cell_at j) (rows df).




(** What the numeric block makes of one value returned by [pd.to_numeric]. *)
Definition zero_filled (x : float) : cell :=
  if is_nan x then Num 0%float else Num x.


(** Two frames that differ at most in the dtype recorded for columns other
    than DATE. *)
Definition same_data (df df' : DataFrame) : Prop :=
  rows df' = rows df /\ columns df' = columns df /\
  forall j, index_of "DATE" (columns df) = Some j -> dtype_at j df' = dtype_at j df.

(** The rows of the table a run returns. *)
Definition rows_of (m : outcome DataFrame) : outcome (list row) :=
  match m with Ok d => Ok (rows d) | Raises e => Raises e end.

(** Two runs of the filter engine with the same observable result: the same
    exception, or frames with the same labels and the same rows. *)
Definition same_result (a b : outcome DataFrame) : Prop :=
  match a, b with
  | Ok x, Ok y => columns y = columns x /\ rows y = rows x
  | Raises e, Raises e' => e = e'
  | _, _ => False
  end.


(** The Timestamp in a cell of a datetime64 column, [None] for NaT. *)
Definition timestamp_of (c : cell) : option Z :=
  match c with
  | Timestamp t => Some t
  | _ => None
  end.

(** The column at position [j] read as a datetime64 column. *)
Definition date_column (j : nat) (df : DataFrame) : list (option Z) :=
  map (fun r => timestamp_of (cell_at j r)) (rows df).

(** A Timestamp not later than the midnight that begins day [d]. *)
Definition by_midnight_of (d : Z) (c : cell) : bool :=
  match c with
  | Timestamp t => (t <=? d * ns_per_day)%Z
  | _ => false
  end.

(** ** A test double for pandas

    It knows one file, the few dates and numbers written in it, and the
    patterns of the modelled fragment; it serves to run the definitions on
    concrete inputs. *)

Module Fixture.

Definition day (d : Z) : Z := d * ns_per_day.

(** The parse of a four-line text file: every column is an object column of
    strings. *)
Definition shipments : DataFrame :=
  mkFrame
    [ (" INDIAN IMPORTER NAME", DObject); ("DATE ", DObject);
      ("QUANTITY", DObject); ("INDIAN PORT", DObject) ]
    [ [Str "ABC Corp"; Str "05/01/2024"; Str "12"; Str "MUMBAI"];
      [Str "A.C Ltd"; Str "someday"; Str "7"; Str "MUMBAI"];
      [Str "ACME Corp"; Str "17/02/2024"; Str "twelve"; Str "MUMBAI"];
      [Str "Zenith"; Str "01/03/2024"; Str "3"; Str "MUMBAI"] ].

Definition shipments_file : UploadedFile := mkFile "shipments.txt" "shipments".

(** The parse of a file in which no date can be read. *)
Definition undated : DataFrame :=
  mkFrame
    [ ("INDIAN IMPORTER NAME", DObject); ("DATE", DObject) ]
    [ [Str "ABC Corp"; Str "someday"]; [Str "Zenith"; Str "soon"] ].

Definition undated_file : UploadedFile := mkFile "undated.csv" "undated".

Definition report_pdf : UploadedFile := mkFile "report.pdf" "%PDF-1.7".

(** Days since the epoch of the dates of [shipments], read day first or
    month first. *)
Definition known_date (dayfirst : bool) (s : string) : option Z :=
  if String.eqb s "05/01/2024" then Some (day (if dayfirst then 19727 else 19844))
  else if String.eqb s "17/02/2024" then (if dayfirst then Some (day 19770) else None)
  else if String.eqb s "01/03/2024" then Some (day (if dayfirst then 19783 else 19725))
  else None.

Definition known_number (s : string) : float :=
  if String.eqb s "12" then 12%float
  else if String.eqb s "7" then 7%float
  else if String.eqb s "3" then 3%float
  else nan.

Definition structural_equal (c : cell) (v : pyval) : bool :=
  match c, v with
  | Str a, PyCell (Str b) => String.eqb a b
  | Num a, PyCell (Num b) => PrimFloat.eqb a b || (is_nan a && is_nan b)
  | Timestamp a, PyCell (Timestamp b) => Z.eqb a b
  | NaT, PyCell NaT => true
  | _, _ => false
  end.

#[refine, export] Instance double : Pandas := {|
  read_csv text :=
    if String.eqb text "shipments" then Ok shipments
    else if String.eqb text "undated" then Ok undated
    else Raises (LibraryError "EmptyDataError");
  read_excel file := Raises (LibraryError "BadZipFile");
  to_datetime dayfirst vs :=
    map (fun c => match c with
                  | Str s => known_date dayfirst s
                  | Timestamp t => Some t
                  | Num _ | NaT => None
                  end) vs;
  to_numeric vs :=
    map (fun c => match c with
                  | Str s => known_number s
                  | Num x => x
                  | Timestamp _ | NaT => nan
                  end) vs;
  to_datetime_scalar v :=
    match v with
    | PyNone => Ok None
    | _ => Raises (LibraryError "DateParseError")
    end;
  py_str c :=
    match c with
    | Str s => s
    | Num _ => "<float>"
    | Timestamp _ => "<timestamp>"
    | NaT => "NaT"
    end;
  py_equal := structural_equal;
  re_compile_other pattern ignorecase := Raises ReError
|}.
Proof.
  - intros text df; destruct (String.eqb text "shipments");
      [intros [= <-]; repeat constructor|].
    destruct (String.eqb text "undated"); intros H;
      [injection H as <- | discriminate H].
    repeat constructor.
  - intros file df H; discriminate H.
  - intros dayfirst vs; apply length_map.
  - intros vs; apply length_map.
Defined.

(** A table of importer names. *)
Definition importers : DataFrame :=
  mkFrame [("INDIAN IMPORTER NAME", DObject)]
          [ [Str "ABC Corp"]; [Str "A.C Ltd"]; [Str "Zenith"] ].

(** What [load_data] makes of [shipments_file]. *)
Definition loaded : DataFrame :=
  mkFrame
    [ ("INDIAN IMPORTER NAME", DObject); ("DATE", DDatetime);
      ("QUANTITY", DFloat); ("INDIAN PORT", DCategory) ]
    [ [Str "ABC Corp"; Timestamp (day 19727); Num 12; Str "MUMBAI"];
      [Str "ACME Corp"; Timestamp (day 19770); Num 0; Str "MUMBAI"];
      [Str "Zenith"; Timestamp (day 19783); Num 3; Str "MUMBAI"] ].

(** [loaded] before the categorical compaction. *)
Definition coerced : DataFrame :=
  mkFrame
    [ ("INDIAN IMPORTER NAME", DObject); ("DATE", DDatetime);
      ("QUANTITY", DFloat); ("INDIAN PORT", DObject) ]
    (rows loaded).



(** The one row in both. *)
Definition loaded_late_corp : DataFrame :=
  mkFrame (header loaded)
    [ [Str "ACME Corp"; Timestamp (day 19770); Num 0; Str "MUMBAI"] ].

Definition by_name : string * criterion := ("INDIAN IMPORTER NAME", CStr "corp").

Definition by_date : string * criterion :=
  ("DATE_RANGE", CTuple [PyDate 19770; PyDate 19783]).

Definition by_port : string * criterion :=
  ("INDIAN PORT", CList [PyCell (Str "MUMBAI")]).

End Fixture.

(** ** More sample data *)

Module Samples.

(** A table of product descriptions. *)
Definition machines : DataFrame :=
  mkFrame [("PRODUCT DESCRIPTION", DObject)]
          [ [Str "Mobile Crane Unit"]; [Str "Electric Forklift"];
            [Str "Bulldozer"] ].


End Samples.


(** * Properties *)

(** ** Sequencing *)

Lemma bind_ok {A B : Type} (m : outcome A) (k : A -> outcome B) (b : B) :
  (m ≫= k) = Ok b -> exists a, m = Ok a /\ k a = Ok b.
Proof.
  destruct m as [a|e]; cbn; intros Hk; [eauto | discriminate].
Qed.

Lemma foldM_app {A S : Type} (step : S -> A -> outcome S) (s : S) (l1 l2 : list A) :
  foldM step s (l1 ++ l2) = (foldM step s l1 ≫= fun s' => foldM step s' l2).
Proof.
  revert s; induction l1 as [|a l1 IH]; intros s; cbn; [reflexivity|].
  destruct (step s a) as [s'|e]; cbn; [apply IH | reflexivity].
Qed.

(** A relation kept by every step on the listed items is kept by the
    fold. *)
Lemma foldM_invariant {A S : Type} (step : S -> A -> outcome S)
    (P : A -> Prop) (R : S -> S -> Prop) :
  (forall s, R s s) ->
  (forall s1 s2 s3, R s1 s2 -> R s2 s3 -> R s1 s3) ->
  (forall s a s', P a -> step s a = Ok s' -> R s s') ->
  forall l s s', Forall P l -> foldM step s l = Ok s' -> R s s'.
Proof.
  intros Hrefl Htrans Hstep l; induction l as [|a l IH]; intros s s' HP H; cbn in H.
  - injection H as <-; apply Hrefl.
  - apply bind_ok in H as (s1 & H1 & H2).
    apply Forall_cons in HP as [Ha HP].
    eapply Htrans; [eapply Hstep; [exact Ha | exact H1] | apply IH; assumption].
Qed.

Lemma filter_all {A : Type} (l : list A) : List.filter (fun _ => true) l = l.
Proof. induction l as [|x l IH]; cbn; [|rewrite IH]; reflexivity. Qed.

Lemma filter_swap {A : Type} (p q : A -> bool) (l : list A) :
  List.filter q (List.filter p l) = List.filter p (List.filter q l).
Proof.
  induction l as [|x l IH]; cbn; [reflexivity|].
  destruct (p x) eqn:Hp, (q x) eqn:Hq; cbn; rewrite ?Hp, ?Hq, IH; reflexivity.
Qed.

(** ** Boolean indexing *)

Lemma select_sublist {A : Type} (l : list A) (mask : list bool) :
  sublist (select l mask) l.
Proof.
  revert mask; induction l as [|x l IH]; intros [|b mask]; cbn;
    try apply sublist_nil_l.
  destruct b; [apply sublist_skip | apply sublist_cons]; apply IH.
Qed.

Lemma select_map {A : Type} (p : A -> bool) (l : list A) :
  select l (map p l) = List.filter p l.
Proof.
  induction l as [|x l IH]; cbn; [reflexivity|].
  destruct (p x); rewrite IH; reflexivity.
Qed.

Lemma mask_and_map {A : Type} (p q : A -> bool) (l : list A) :
  mask_and (map p l) (map q l) = map (fun x => p x && q x) l.
Proof.
  unfold mask_and; induction l as [|x l IH]; cbn; [reflexivity|].
  rewrite IH; reflexivity.
Qed.

Lemma bool_index_map (df : DataFrame) (p : row -> bool) :
  bool_index df (map p (rows df)) = keep p df.
Proof. unfold bool_index, keep; rewrite select_map; reflexivity. Qed.

Lemma narrows_refl df : narrows df df.
Proof. split; reflexivity. Qed.

Lemma narrows_trans df1 df2 df3 :
  narrows df1 df2 -> narrows df2 df3 -> narrows df1 df3.
Proof.
  intros [H1 S1] [H2 S2]; split; [congruence | etransitivity; eassumption].
Qed.

Lemma narrows_bool_index df mask : narrows df (bool_index df mask).
Proof. split; [reflexivity | apply select_sublist]. Qed.

Section EngineFacts.
Context {pandas : Pandas}.

Ltac step_binds H :=
  repeat match type of H with
  | (_ ≫= _) = Ok _ => apply bind_ok in H as (? & ? & H)
  | (if ?b then _ else _) = Ok _ => destruct b eqn:?
  | Ok _ = Ok _ => injection H as <-
  | Raises _ = Ok _ => discriminate H
  end.

Lemma filter_step_narrows df item df' :
  filter_step df item = Ok df' -> narrows df df'.
Proof.
  destruct item as [column criterion]; unfold filter_step; intros H.
  destruct (is_none criterion || _); [injection H as <-; apply narrows_refl|].
  destruct (negb (in_columns column df) && _); [injection H as <-; apply narrows_refl|].
  destruct (String.eqb column "DATE_RANGE").
  { apply bind_ok in H as (go & _ & H); destruct go;
      step_binds H; auto using narrows_refl, narrows_bool_index. }
  destruct (String.eqb column "AWP_MACHINES").
  { step_binds H; auto using narrows_refl, narrows_bool_index. }
  destruct criterion; step_binds H; auto using narrows_refl, narrows_bool_index.
Qed.

Lemma apply_filters_narrows df filters df' :
  apply_filters df filters = Ok df' -> narrows df df'.
Proof.
  unfold apply_filters, copy.
  apply (foldM_invariant filter_step (fun _ => True) narrows);
    eauto using narrows_refl, narrows_trans, filter_step_narrows.
  apply Forall_forall; auto.
Qed.

(** On frames whose DATE column is a datetime64 column, what one item does
    is decided by the header alone: it raises, or it keeps the rows that
    satisfy a predicate on single rows. *)

Ltac uniform_noop :=
  right; exists (fun _ => true); intros rs; rewrite filter_all; reflexivity.
Ltac uniform_raise := left; eexists; intros rs; reflexivity.
Ltac uniform_keep :=
  right; eexists; intros rs;
  unfold astype_str, isin, series_compare; cbn [sdtype values];
  rewrite ?map_map, ?mask_and_map, select_map; reflexivity.

Lemma filter_step_uniform h item :
  date_typed (mkFrame h []) = true ->
  (exists e, forall rs, filter_step (mkFrame h rs) item = Raises e) \/
  (exists p, forall rs,
      filter_step (mkFrame h rs) item = Ok (mkFrame h (List.filter p rs))).
Proof.
  intros Hd. destruct item as [column criterion].
  unfold filter_step, str_contains, in_columns, getitem, bool_index,
    date_typed, columns, dtype_at in *.
  cbn [header rows] in *.
  unfold mbind, outcome_bind.
  destruct (is_none criterion || _); [uniform_noop|].
  destruct (negb _ && negb _); [uniform_noop|].
  destruct (column =? "DATE_RANGE").
  { destruct (existsb (String.eqb "DATE") (map fst h)); [|uniform_noop].
    destruct (py_index criterion 0) as [c0|e]; [|uniform_raise].
    destruct (is_py_none c0); [uniform_noop|].
    destruct (py_index criterion 1) as [c1|e]; [|uniform_raise].
    destruct (negb (is_py_none c1)); [|uniform_noop].
    destruct (pd_to_datetime c0) as [start|e]; [|uniform_raise].
    destruct (pd_to_datetime c1) as [end_|e]; [|uniform_raise].
    destruct (index_of "DATE" (map fst h)) as [j|]; [|uniform_raise].
    unfold series_compare; cbn [sdtype values].
    destruct (default DObject (snd <$> h !! j)); try discriminate Hd.
    uniform_keep. }
  destruct (column =? "AWP_MACHINES").
  { destruct (existsb _ _ && truthy criterion); [|uniform_noop].
    destruct (lower_each criterion) as [kws|e]; [|uniform_raise].
    destruct (index_of "PRODUCT DESCRIPTION" (map fst h)) as [j|];
      [|uniform_raise].
    destruct (re_compile _ _) as [found|e]; [|uniform_raise].
    uniform_keep. }
  destruct criterion as [|pat|vs|vs]; [uniform_noop| | |].
  - destruct (index_of column (map fst h)) as [j|]; [|uniform_raise].
    destruct (re_compile _ _) as [found|e]; [|uniform_raise].
    uniform_keep.
  - destruct (existsb _ _); [|uniform_noop].
    destruct (index_of column (map fst h)) as [j|]; [|uniform_raise].
    uniform_keep.
  - destruct (existsb _ _); [|uniform_noop].
    destruct (index_of column (map fst h)) as [j|]; [|uniform_raise].
    uniform_keep.
Qed.

(** Two items applied in either order return the same table, when one of
    the orders returns at all. *)
Lemma filter_step_swap df i1 i2 d :
  date_typed df = true ->
  foldM filter_step df [i1; i2] = Ok d -> foldM filter_step df [i2; i1] = Ok d.
Proof.
  destruct df as [h rs]; intros Hd.
  destruct (filter_step_uniform h i1 Hd) as [[e1 H1]|[p H1]],
           (filter_step_uniform h i2 Hd) as [[e2 H2]|[q H2]];
    cbn [foldM]; rewrite ?H1, ?H2; cbn [mbind outcome_bind];
    rewrite ?H1, ?H2; cbn [mbind outcome_bind]; try discriminate.
  rewrite (filter_swap p q); auto.
Qed.

End EngineFacts.

(** ** The filter engine narrows *)

Section FilterClaims.
Context {pandas : Pandas}.

Lemma filter_step_empty df k c :
  c ∈ empty_criteria -> filter_step df (k, c) = Ok df.
Proof.
  unfold empty_criteria; intros Hc.
  repeat (apply elem_of_cons in Hc as [->|Hc]; [reflexivity|]).
  inversion Hc.
Qed.

(** C5. With no criteria the table comes back as it is, and an item whose
    criterion is None, the empty str, the empty list or the empty tuple can
    be removed from the criteria, wherever it stands and whatever its key,
    without changing what [apply_filters] returns or raises. *)
Theorem noop_criteria :
  (forall df, apply_filters df [] = Ok df) /\
  Forall (fun c =>
            forall df k before after,
              apply_filters df (before ++ (k, c) :: after)
              = apply_filters df (before ++ after))
         empty_criteria.
Proof.
  split; [reflexivity|].
  apply Forall_forall; intros c Hc df k before after.
  unfold apply_filters; rewrite !foldM_app.
  destruct (foldM filter_step (copy df) before) as [d|e]; [|reflexivity].
  cbn [mbind outcome_bind foldM].
  rewrite (filter_step_empty d k c Hc); reflexivity.
Qed.



End FilterClaims.

Section CompositionClaims.
Context {pandas : Pandas}.


End CompositionClaims.

(** ** The DATE_RANGE filter *)

Section DateRange.
Context {pandas : Pandas}.

Lemma apply_filters_single df item :
  apply_filters df [item] = filter_step df item.
Proof.
  unfold apply_filters, copy; cbn [foldM].
  destruct (filter_step df item); reflexivity.
Qed.

Lemma in_columns_index col df :
  in_columns col df = true -> exists j, index_of col (columns df) = Some j.
Proof.
  unfold in_columns; induction (columns df) as [|l ls IH]; cbn; [discriminate|].
  destruct (String.eqb col l); [eauto|].
  cbn; intros H; destruct (IH H) as [j ->]; cbn; eauto.
Qed.

Lemma in_range_compare s e c :
  timestamp_compare Z.geb (Some s) c && timestamp_compare Z.leb (Some e) c
  = in_range s e c.
Proof. destruct c; cbn; try reflexivity. rewrite Z.geb_leb; reflexivity. Qed.

(** The DATE_RANGE branch, reached by every criterion that is not empty. *)
Lemma filter_step_date_range df c :
  truthy c = true ->
  filter_step df ("DATE_RANGE", c) =
  (go ← (if in_columns "DATE" df then
           c0 ← py_index c 0;
           if is_py_none c0 then Ok false
           else c1 ← py_index c 1; Ok (negb (is_py_none c1))
         else Ok false);
   if go : bool then
     c0 ← py_index c 0;
     start_date ← pd_to_datetime c0;
     c1 ← py_index c 1;
     end_date ← pd_to_datetime c1;
     dates ← getitem df "DATE";
     after ← series_compare Z.geb dates start_date;
     dates' ← getitem df "DATE";
     before ← series_compare Z.leb dates' end_date;
     Ok (bool_index df (mask_and after before))
   else Ok df).
Proof.
  intros Ht; unfold filter_step.
  replace (is_none c || is_str_list_tuple c && negb (truthy c)) with false
    by (destruct c; cbn [is_none is_str_list_tuple orb andb]; rewrite ?Ht; reflexivity || discriminate).
  replace (existsb (String.eqb "DATE_RANGE") ["DATE_RANGE"; "AWP_MACHINES"])
    with true by reflexivity.
  rewrite andb_false_r, String.eqb_refl; reflexivity.
Qed.

Lemma date_range_step df a b s e :
  in_columns "DATE" df = true -> date_typed df = true ->
  a <> PyNone -> b <> PyNone ->
  pd_to_datetime a = Ok (Some s) -> pd_to_datetime b = Ok (Some e) ->
  filter_step df ("DATE_RANGE", CTuple [a; b]) = Ok (dated_within s e df).
Proof.
  intros Hin Hd Ha Hb Hs He.
  destruct (in_columns_index _ _ Hin) as [j Hj].
  unfold date_typed in Hd; rewrite Hj in Hd.
  rewrite filter_step_date_range by reflexivity.
  unfold dated_within, getitem; rewrite Hin, Hj.
  cbn [py_index lookup list_lookup mbind outcome_bind].
  replace (is_py_none a) with false by (destruct a; [contradiction|reflexivity..]).
  replace (is_py_none b) with false by (destruct b; [contradiction|reflexivity..]).
  cbn [mbind outcome_bind negb]. rewrite Hs, He. cbn [mbind outcome_bind].
  unfold series_compare; cbn [sdtype values].
  destruct (dtype_at j df); try discriminate Hd.
  cbn [mbind outcome_bind].
  rewrite mask_and_map, map_map, bool_index_map.
  unfold keep; f_equal; f_equal. apply filter_ext; intros r.
  apply in_range_compare.
Qed.




End DateRange.

(** ** Categorical compaction *)

Section CompactionClaims.
Context {pandas : Pandas}.

Lemma index_of_lookup col labels j :
  index_of col labels = Some j -> labels !! j = Some col.
Proof.
  revert j; induction labels as [|l ls IH]; intros j; cbn; [discriminate|].
  destruct (String.eqb col l) eqn:E.
  - intros [= <-]; apply String.eqb_eq in E as ->; reflexivity.
  - destruct (index_of col ls) as [i|]; cbn; [|discriminate].
    intros [= <-]; cbn; auto.
Qed.

Lemma insert_cell_at j (r : row) : <[j := cell_at j r]> r = r.
Proof.
  unfold cell_at; destruct (r !! j) as [c|] eqn:E; cbn.
  - apply list_insert_id, E.
  - apply list_insert_ge, lookup_ge_None, E.
Qed.

Lemma zip_with_map_r {A B C : Type} (f : A -> B -> C) (g : A -> B) (l : list A) :
  zip_with f l (map g l) = map (fun x => f x (g x)) l.
Proof. induction l as [|x l IH]; cbn; [|rewrite IH]; reflexivity. Qed.

Lemma same_data_refl df : same_data df df.
Proof. repeat split. Qed.

Lemma same_data_trans df1 df2 df3 :
  same_data df1 df2 -> same_data df2 df3 -> same_data df1 df3.
Proof.
  intros (R1 & C1 & D1) (R2 & C2 & D2); repeat split; try congruence.
  intros j Hj; rewrite D2, D1; congruence.
Qed.

(** Turning a column other than DATE into a categorical one changes its
    recorded dtype and nothing else. *)
Lemma setitem_category_same_data df col j :
  col <> "DATE" -> index_of col (columns df) = Some j ->
  same_data df
    (setitem df col (astype_category (mkSeries (dtype_at j df)
                                               (map (cell_at j) (rows df))))).
Proof.
  intros Hcol Hj; unfold setitem; rewrite Hj; cbn [values sdtype astype_category].
  pose proof (index_of_lookup _ _ _ Hj) as Hl.
  assert (Hc : map fst (<[j := (col, DCategory)]> (header df)) = columns df).
  { unfold columns in *.
    change (map fst (<[j := (col, DCategory)]> (header df)))
      with (fst <$> <[j := (col, DCategory)]> (header df)).
    rewrite list_fmap_insert; apply list_insert_id, Hl. }
  repeat split.
  - cbn [rows]; rewrite zip_with_map_r.
    erewrite map_ext; [apply map_id|]; intros r; apply insert_cell_at.
  - exact Hc.
  - intros j' Hj'; unfold dtype_at; cbn [header].
    rewrite list_lookup_insert_ne; [reflexivity|].
    intros <-; apply index_of_lookup in Hj'; congruence.
Qed.

Lemma categorize_step_same_data df col df' :
  col <> "DATE" -> categorize_step df col = Ok df' -> same_data df df'.
Proof.
  intros Hcol; unfold categorize_step, getitem.
  destruct (in_columns col df); [|intros [= <-]; apply same_data_refl].
  destruct (index_of col (columns df)) as [j|] eqn:Hj; [|discriminate].
  cbn [mbind outcome_bind sdtype].
  destruct (dtype_eqb _ _); [|intros [= <-]; apply same_data_refl].
  destruct (ratio_below_half _) as [[|]|e]; cbn [mbind outcome_bind];
    [ | intros [= <-]; apply same_data_refl | discriminate].
  intros [= <-]; apply setitem_category_same_data; assumption.
Qed.

Lemma compact_same_data df dfc : compact df = Ok dfc -> same_data df dfc.
Proof.
  unfold compact.
  apply (foldM_invariant categorize_step (fun col => col <> "DATE") same_data);
    eauto using same_data_refl, same_data_trans, categorize_step_same_data.
  unfold string_cols_to_categorize; repeat constructor; discriminate.
Qed.

Ltac same_case :=
  match goal with
  | |- context [if ?c then _ else _] => destruct c
  | |- context [match ?x with _ => _ end] => destruct x
  end; cbn [rows_of rows sdtype values].

(** One item selects the same rows on two frames with the same labels, the
    same rows and the same dtype for DATE. *)
Lemma filter_step_rows h hc rs item :
  map fst hc = map fst h ->
  (forall j, index_of "DATE" (map fst h) = Some j ->
             default DObject (snd <$> hc !! j) = default DObject (snd <$> h !! j)) ->
  rows_of (filter_step (mkFrame hc rs) item)
  = rows_of (filter_step (mkFrame h rs) item).
Proof.
  intros Hn Hd. destruct item as [column criterion].
  unfold filter_step, str_contains, in_columns, getitem, bool_index,
    columns, dtype_at, astype_str, isin.
  cbn [header rows sdtype values].
  rewrite Hn.
  destruct (index_of "DATE" (map fst h)) as [j|] eqn:Hj;
    [rewrite (Hd j eq_refl)|]; clear Hd.
  all: destruct (index_of column (map fst h)) as [jc|];
    destruct (index_of "PRODUCT DESCRIPTION" (map fst h)) as [jp|].
  all: unfold mbind, outcome_bind, series_compare; cbn [sdtype values].
  all: repeat same_case; reflexivity.
Qed.

Lemma filter_step_same_data df dfc item :
  same_data df dfc ->
  match filter_step df item, filter_step dfc item with
  | Ok x, Ok y => same_data x y
  | Raises e, Raises e' => e = e'
  | _, _ => False
  end.
Proof.
  destruct df as [h rs], dfc as [hc rsc]; intros (HR & HC & HD).
  cbn in HR, HC; subst rsc.
  pose proof (filter_step_rows h hc rs item HC HD) as Hrows.
  destruct (filter_step (mkFrame h rs) item) as [x|e] eqn:Hx,
           (filter_step (mkFrame hc rs) item) as [y|e'] eqn:Hy;
    cbn in Hrows; try discriminate; [|congruence].
  apply filter_step_narrows in Hx as [Hhx _], Hy as [Hhy _].
  injection Hrows as Hrows; cbn [header] in *.
  unfold same_data, columns, dtype_at in *; rewrite Hhx, Hhy; auto.
Qed.

Lemma foldM_filter_same_data filters : forall df dfc,
  same_data df dfc ->
  same_result (foldM filter_step df filters) (foldM filter_step dfc filters).
Proof.
  induction filters as [|item filters IH]; intros df dfc Hs; cbn [foldM].
  - destruct Hs as (HR & HC & _); split; assumption.
  - pose proof (filter_step_same_data df dfc item Hs) as Hstep.
    destruct (filter_step df item) as [x|e], (filter_step dfc item) as [y|e'];
      cbn [mbind outcome_bind]; try contradiction.
    + apply IH, Hstep.
    + exact Hstep.
Qed.

(** C9. Whatever the criteria, filtering the table that the categorical
    compaction of [load_data] produced and filtering the table it started
    from end alike: with the same exception, or with tables that have the
    same columns and the same rows. *)
Theorem compaction_unobservable df dfc filters :
  compact df = Ok dfc ->
  same_result (apply_filters df filters) (apply_filters dfc filters).
Proof.
  intros H; apply foldM_filter_same_data, compact_same_data, H.
Qed.

End CompactionClaims.

(** ** Free-text filters *)

Section FreeText.
Context {pandas : Pandas}.

Lemma lower_char_eqb x c :
  Ascii.eqb (Text.lower_char x) (Text.lower_char c) = true
  <-> Text.lower_char x = Text.lower_char c.
Proof. apply Ascii.eqb_eq. Qed.

Lemma match_here_plain p s :
  Re.match_here true (map Re.Lit p) s = true
  <-> exists post, Text.lower_chars s = Text.lower_chars p ++ post.
Proof.
  revert s; induction p as [|x p IH]; intros s; cbn.
  - split; [eauto | reflexivity].
  - destruct s as [|c s]; cbn.
    + split; [discriminate | intros [post H]; discriminate H].
    + rewrite andb_true_iff, lower_char_eqb, IH; split.
      * intros [Hx [post Hp]]; exists post.
        unfold Text.lower_chars in *; cbn [map app]; congruence.
      * unfold Text.lower_chars; cbn [map app].
        intros [post [= Hx Hp]]; split; [congruence | eauto].
Qed.

Lemma search_plain p s :
  Re.search true [map Re.Lit p] s = true
  <-> exists pre post, Text.lower_chars s = pre ++ Text.lower_chars p ++ post.
Proof.
  induction s as [|c s IH]; cbn [Re.search existsb].
  - rewrite !orb_false_r, match_here_plain; split.
    + intros [post H]; exists [], post; exact H.
    + intros (pre & post & H); destruct pre as [|a pre]; [eauto|discriminate H].
  - rewrite orb_false_r, orb_true_iff, match_here_plain, IH; split.
    + intros [[post H] | (pre & post & H)].
      * exists [], post; exact H.
      * exists (Text.lower_char c :: pre), post.
        change (Text.lower_chars (c :: s))
          with (Text.lower_char c :: Text.lower_chars s).
        rewrite H; reflexivity.
    + change (Text.lower_chars (c :: s))
        with (Text.lower_char c :: Text.lower_chars s).
      intros (pre & post & H); destruct pre as [|a pre].
      * left; exists post; exact H.
      * right; exists pre, post; injection H as _ H; exact H.
Qed.



(** C1. The criterion [A.C] on the importer names [ABC Corp], [A.C Ltd] and
    [Zenith]: [apply_filters] keeps [ABC Corp] as well as [A.C Ltd], because
    it reads the criterion as a regular expression in which the dot stands
    for any character, although [ABC Corp] does not contain [A.C]. *)
Theorem free_text_reads_regex :
  apply_filters Fixture.importers [("INDIAN IMPORTER NAME", CStr "A.C")]
  = Ok (mkFrame (header Fixture.importers) [ [Str "ABC Corp"]; [Str "A.C Ltd"] ])
  /\ ~ Text.contains_ci "A.C" "ABC Corp"
  /\ Text.contains_ci "A.C" "A.C Ltd".
Proof.
  split; [reflexivity|]; split.
  - intros H; apply search_plain in H; discriminate H.
  - apply search_plain; reflexivity.
Qed.

End FreeText.

(** ** The format dispatch *)

Section Dispatch.
Context {pandas : Pandas}.

Lemma starts_with_app l p :
  Text.starts_with l p = true -> exists rest, l = p ++ rest.
Proof.
  revert l; induction p as [|x p IH]; intros l; cbn; [eauto|].
  destruct l as [|y l]; [discriminate|].
  intros H; apply andb_true_iff in H as [Hxy Hp].
  apply Ascii.eqb_eq in Hxy as ->.
  destruct (IH l Hp) as [rest ->]; eauto.
Qed.

(** A name that ends in [.csv], [.txt] or [.xlsx] has that extension. *)
Lemma endswith_extension file_name :
  (Text.endswith file_name ".csv" = true -> Text.extension file_name = Some "csv") /\
  (Text.endswith file_name ".txt" = true -> Text.extension file_name = Some "txt") /\
  (Text.endswith file_name ".xlsx" = true -> Text.extension file_name = Some "xlsx").
Proof.
  unfold Text.endswith, Text.extension;
    repeat split; intros H; apply starts_with_app in H as [rest ->]; reflexivity.
Qed.

(** C2, as the code has it. A file whose extension is none of csv, txt and
    xlsx makes [load_data] fail with Python's UnboundLocalError, raised when
    the frame that no branch has assigned is first read; no table is
    returned. *)
Theorem unsupported_extension_unbound uploaded_file :
  Text.extension (name uploaded_file) ∉ supported_extensions ->
  load_data uploaded_file = Raises UnboundLocalError.
Proof.
  intros Hext; unfold load_data, read_file.
  destruct (endswith_extension (name uploaded_file)) as (Hcsv & Htxt & Hxlsx).
  destruct (Text.endswith (name uploaded_file) ".csv").
  { exfalso; apply Hext; rewrite Hcsv by reflexivity; repeat constructor. }
  destruct (Text.endswith (name uploaded_file) ".txt").
  { exfalso; apply Hext; rewrite Htxt by reflexivity; repeat constructor. }
  destruct (Text.endswith (name uploaded_file) ".xlsx").
  { exfalso; apply Hext; rewrite Hxlsx by reflexivity; repeat constructor. }
  reflexivity.
Qed.

End Dispatch.

(** [report.pdf] has an unsupported extension, and what [load_data] raises
    for it is not an UnsupportedFormat error. *)
Lemma unsupported_extension_not_dedicated :
  (Text.extension (name Fixture.report_pdf) ∉ supported_extensions) /\
  load_data (pandas := Fixture.double) Fixture.report_pdf = Raises UnboundLocalError /\
  load_data (pandas := Fixture.double) Fixture.report_pdf <> Raises UnsupportedFormat.
Proof.
  split; [|split; [reflexivity | discriminate]].
  unfold supported_extensions; intros H.
  repeat (apply elem_of_cons in H as [H|H]; [discriminate H|]).
  inversion H.
Qed.

Lemma unsupported_extension_unbound_witness :
  (Text.extension (name Fixture.report_pdf) ∉ supported_extensions) /\
  load_data (pandas := Fixture.double) Fixture.report_pdf = Raises UnboundLocalError.
Proof.
  assert (H : Text.extension (name Fixture.report_pdf) ∉ supported_extensions).
  { unfold supported_extensions; intros H.
    repeat (apply elem_of_cons in H as [H|H]; [discriminate H|]).
    inversion H. }
  split; [exact H | exact (unsupported_extension_unbound (pandas := Fixture.double) Fixture.report_pdf H)].
Defined.

(** ** The loader: dates and numbers *)

Section LoaderFacts.
Context {pandas : Pandas}.

Lemma index_of_in_columns col df j :
  index_of col (columns df) = Some j -> in_columns col df = true.
Proof.
  unfold in_columns; revert j; induction (columns df) as [|l ls IH];
    intros j; cbn; [discriminate|].
  destruct (String.eqb col l); [reflexivity|].
  destruct (index_of col ls) as [i|]; [eauto|discriminate].
Qed.

Lemma columns_insert df col j d :
  index_of col (columns df) = Some j ->
  map fst (<[j := (col, d)]> (header df)) = columns df.
Proof.
  intros Hj; apply index_of_lookup in Hj; unfold columns in *.
  change (map fst (<[j := (col, d)]> (header df)))
    with (fst <$> <[j := (col, d)]> (header df)).
  rewrite list_fmap_insert; apply list_insert_id, Hj.
Qed.

Lemma setitem_existing df col s j :
  index_of col (columns df) = Some j ->
  setitem df col s
  = mkFrame (<[j := (col, sdtype s)]> (header df))
            (zip_with (fun r v => <[j := v]> r) (rows df) (values s)).
Proof. intros Hj; unfold setitem; rewrite Hj; reflexivity. Qed.

Lemma getitem_existing df col j :
  index_of col (columns df) = Some j ->
  getitem df col = Ok (mkSeries (dtype_at j df) (column_values j df)).
Proof. intros Hj; unfold getitem; rewrite Hj; reflexivity. Qed.

Lemma fill_inserted j x (r : row) :
  <[j := (if isna (cell_at j (<[j := Num x]> r)) then Num 0%float
          else cell_at j (<[j := Num x]> r))]> (<[j := Num x]> r)
  = <[j := zero_filled x]> r.
Proof.
  unfold cell_at, zero_filled.
  destruct (decide (j < length r)%nat) as [Hlt|Hge].
  - rewrite list_lookup_insert_eq by exact Hlt; cbn [default isna].
    rewrite list_insert_insert_eq; reflexivity.
  - rewrite !(list_insert_ge r) by lia; reflexivity.
Qed.

Lemma refill j (rs : list row) (xs : list float) :
  let rs1 := zip_with (fun r v => <[j := v]> r) rs (map Num xs) in
  zip_with (fun r v => <[j := v]> r) rs1
    (map (fun c => if isna c then Num 0%float else c) (map (cell_at j) rs1))
  = zip_with (fun r x => <[j := zero_filled x]> r) rs xs.
Proof.
  cbn zeta; revert xs; induction rs as [|r rs IH]; intros [|x xs];
    cbn [zip_with map]; try reflexivity.
  rewrite fill_inserted, IH; reflexivity.
Qed.

Lemma numeric_step_rows df col j df' :
  index_of col (columns df) = Some j ->
  numeric_step df col = Ok df' ->
  columns df' = columns df /\
  rows df' = zip_with (fun r x => <[j := zero_filled x]> r) (rows df)
                      (to_numeric (column_values j df)) /\
  exists d, header df' = <[j := (col, d)]> (header df).
Proof.
  intros Hj; unfold numeric_step, fillna_inplace.
  rewrite (index_of_in_columns _ _ _ Hj), (getitem_existing _ _ _ Hj).
  cbn [mbind outcome_bind values].
  rewrite (setitem_existing _ _ _ _ Hj).
  set (df1 := mkFrame _ _).
  assert (Hj1 : index_of col (columns df1) = Some j).
  { unfold columns, df1; cbn [header]. rewrite (columns_insert _ _ _ _ Hj). exact Hj. }
  rewrite (getitem_existing _ _ _ Hj1); cbn [mbind outcome_bind].
  rewrite (setitem_existing _ _ _ _ Hj1).
  intros [= <-]; split; [|split].
  - unfold columns at 1; cbn [header].
    rewrite (columns_insert df1 _ _ _ Hj1).
    unfold columns at 1, df1; cbn [header]. apply (columns_insert _ _ _ _ Hj).
  - cbn [rows fillna values float_series column_values df1].
    apply refill.
  - eexists; cbn [header df1]; apply list_insert_insert_eq.
Qed.

Lemma numeric_step_absent df col :
  in_columns col df = false -> numeric_step df col = Ok df.
Proof. intros H; unfold numeric_step; rewrite H; reflexivity. Qed.

Lemma not_in_columns col df :
  index_of col (columns df) = None -> in_columns col df = false.
Proof.
  unfold in_columns; induction (columns df) as [|l ls IH]; cbn; [reflexivity|].
  destruct (String.eqb col l); [discriminate|].
  destruct (index_of col ls); [discriminate|auto].
Qed.






(** *** Rectangular frames *)

Lemma index_lt_header df col j :
  index_of col (columns df) = Some j -> (j < length (header df))%nat.
Proof.
  intros Hj; apply index_of_lookup, lookup_lt_Some in Hj.
  unfold columns in Hj; rewrite length_map in Hj; exact Hj.
Qed.





Lemma normalize_columns_rows df : rows (normalize_columns df) = rows df.
Proof. reflexivity. Qed.



(** *** The date block *)







(** *** The numeric block *)

Lemma index_of_distinct labels a b i j :
  a <> b -> index_of a labels = Some i -> index_of b labels = Some j -> i <> j.
Proof.
  intros Hab Hi Hj <-; apply index_of_lookup in Hi, Hj; congruence.
Qed.









(** The steps of [load_data] that a returned table went through. *)
Lemma load_data_steps uploaded_file df :
  load_data uploaded_file = Ok df ->
  exists raw dated coerced,
    read_file uploaded_file = Ok (Some raw) /\
    coerce_date (normalize_columns raw) = Ok dated /\
    coerce_numeric dated = Ok coerced /\
    compact coerced = Ok df.
Proof.
  unfold load_data; intros H.
  apply bind_ok in H as ([raw|] & Hread & H); [|discriminate H].
  cbn [local mbind outcome_bind] in H.
  apply bind_ok in H as (dated & Hdate & H).
  apply bind_ok in H as (coerced & Hnum & H).
  apply bind_ok in H as (df' & Hcompact & H); injection H as <-.
  eauto 10.
Qed.

Lemma date_typed_header df df' :
  columns df' = columns df ->
  (forall j, index_of "DATE" (columns df) = Some j -> dtype_at j df' = dtype_at j df) ->
  date_typed df' = date_typed df.
Proof.
  intros Hc Hd; unfold date_typed; rewrite Hc.
  destruct (index_of "DATE" (columns df)) as [j|]; [|reflexivity].
  rewrite (Hd j eq_refl); reflexivity.
Qed.

Lemma numeric_step_date_typed df col df' :
  col <> "DATE" -> numeric_step df col = Ok df' -> date_typed df' = date_typed df.
Proof.
  intros Hcol H; destruct (index_of col (columns df)) as [j|] eqn:Hj.
  - destruct (numeric_step_rows _ _ _ _ Hj H) as (Hc & _ & d & Hh).
    apply date_typed_header; [exact Hc|].
    intros jd Hjd; unfold dtype_at; rewrite Hh.
    rewrite list_lookup_insert_ne; [reflexivity|].
    apply (index_of_distinct _ _ _ _ _ Hcol Hj Hjd).
  - rewrite numeric_step_absent in H by (apply not_in_columns, Hj).
    injection H as <-; reflexivity.
Qed.

Lemma coerce_numeric_date_typed df df' :
  coerce_numeric df = Ok df' -> date_typed df' = date_typed df.
Proof.
  unfold coerce_numeric.
  apply (foldM_invariant numeric_step (fun col => col <> "DATE")
           (fun s s' => date_typed s' = date_typed s)); try congruence.
  - intros s col s'; apply numeric_step_date_typed.
  - unfold numeric_cols; repeat constructor; discriminate.
Qed.

Lemma coerce_date_date_typed df dated :
  coerce_date df = Ok dated -> date_typed dated = true.
Proof.
  unfold coerce_date, date_typed.
  destruct (index_of "DATE" (columns df)) as [j|] eqn:Hj.
  - rewrite (index_of_in_columns _ _ _ Hj), (getitem_existing _ _ _ Hj).
    cbn [mbind outcome_bind values].
    rewrite (setitem_existing _ _ _ _ Hj); unfold dropna.
    unfold columns at 1; cbn [header]; rewrite (columns_insert _ _ _ _ Hj), Hj.
    intros [= <-]; unfold columns at 1; cbn [header].
    rewrite (columns_insert _ _ _ _ Hj), Hj; unfold dtype_at; cbn [header].
    rewrite list_lookup_insert_eq by (eapply index_lt_header, Hj); reflexivity.
  - rewrite (not_in_columns _ _ Hj); intros [= <-]; rewrite Hj; reflexivity.
Qed.

(** X4. Every table that [load_data] returns has a datetime64 DATE column,
    if it has a DATE column at all. *)
Lemma load_data_date_typed uploaded_file df :
  load_data uploaded_file = Ok df -> date_typed df = true.
Proof.
  intros Hload.
  destruct (load_data_steps _ _ Hload)
    as (raw & dated & coerced & _ & Hdate & Hnum & Hcompact).
  destruct (compact_same_data _ _ Hcompact) as (_ & HC & HD).
  rewrite (date_typed_header coerced df HC HD).
  rewrite (coerce_numeric_date_typed _ _ Hnum).
  apply (coerce_date_date_typed _ _ Hdate).
Qed.



End LoaderFacts.

(** ** Runs on the test double *)





Lemma compaction_unobservable_witness :
  compact (pandas := Fixture.double) Fixture.coerced = Ok Fixture.loaded /\
  same_result
    (apply_filters (pandas := Fixture.double) Fixture.coerced
       [Fixture.by_port; Fixture.by_name])
    (apply_filters (pandas := Fixture.double) Fixture.loaded
       [Fixture.by_port; Fixture.by_name]).
Proof.
  split; [reflexivity|].
  exact (compaction_unobservable (pandas := Fixture.double) Fixture.coerced
           Fixture.loaded [Fixture.by_port; Fixture.by_name] eq_refl).
Defined.

(** When no date of a file parses, the date block leaves no row, and the
    compaction loop, dividing by the number of rows, raises. *)
Lemma load_data_all_dropped :
  coerce_date (pandas := Fixture.double) (normalize_columns Fixture.undated)
  = Ok (mkFrame [("INDIAN IMPORTER NAME", DObject); ("DATE", DDatetime)] []) /\
  load_data (pandas := Fixture.double) Fixture.undated_file
  = Raises ZeroDivisionError.
Proof. split; reflexivity. Qed.



(** * Further properties *)

(** ** The loader, from the parse to the table *)

Section LoaderExtras.
Context {pandas : Pandas}.








(** *** What can go wrong after the parse *)







(** *** What the loader leaves alone *)



End LoaderExtras.

(** ** Set filters, keyword filters and malformed criteria *)

Section CriteriaExtras.
Context {pandas : Pandas}.




(** *** Patterns made of plain keywords *)













(** X9. Criteria of the wrong shape raise.  On a table with a DATE column, a
    DATE_RANGE tuple with a single bound that is not None raises IndexError;
    on a table with a PRODUCT DESCRIPTION column, an AWP_MACHINES list whose
    first element is not a str raises AttributeError. *)
Theorem malformed_criteria_raise df :
  (in_columns "DATE" df = true ->
   forall a, a <> PyNone ->
     apply_filters df [("DATE_RANGE", CTuple [a])] = Raises IndexError) /\
  (in_columns "PRODUCT DESCRIPTION" df = true ->
   forall v vs, (forall k, v <> PyCell (Str k)) ->
     apply_filters df [("AWP_MACHINES", CList (v :: vs))] = Raises AttributeError).
Proof.
  split.
  - intros Hin a Ha; rewrite apply_filters_single.
    rewrite filter_step_date_range by reflexivity; rewrite Hin.
    cbn [py_index lookup list_lookup mbind outcome_bind].
    destruct a; [contradiction|reflexivity..].
  - intros Hin v vs Hv; rewrite apply_filters_single; unfold filter_step.
    replace (existsb (String.eqb "AWP_MACHINES") ["DATE_RANGE"; "AWP_MACHINES"])
      with true by reflexivity.
    replace ("AWP_MACHINES" =? "DATE_RANGE")%string with false by reflexivity.
    rewrite String.eqb_refl, Hin.
    cbn [is_none is_str_list_tuple truthy negb orb andb lower_each mapM].
    rewrite andb_false_r.
    destruct v as [|d|[k|x|t|]]; try reflexivity.
    exfalso; apply (Hv k); reflexivity.
Qed.

End CriteriaExtras.

(** ** The filter engine, row by row *)

Section EngineExtras.
Context {pandas : Pandas}.

Lemma filter_both {A : Type} (p q : A -> bool) (l : list A) :
  List.filter q (List.filter p l) = List.filter (fun x => p x && q x) l.
Proof.
  induction l as [|x l IH]; cbn; [reflexivity|].
  destruct (p x) eqn:Hp; cbn; [destruct (q x)|]; rewrite IH; reflexivity.
Qed.

Lemma filter_idem {A : Type} (p : A -> bool) (l : list A) :
  List.filter p (List.filter p l) = List.filter p l.
Proof.
  rewrite filter_both; apply filter_ext; intros x; apply andb_diag.
Qed.

Lemma narrows_date_typed df d : narrows df d -> date_typed d = date_typed df.
Proof.
  intros [Hh _]; unfold date_typed, columns, dtype_at; rewrite Hh; reflexivity.
Qed.

Lemma foldM_uniform filters h :
  date_typed (mkFrame h []) = true ->
  (exists e, forall rs, foldM filter_step (mkFrame h rs) filters = Raises e) \/
  (exists p, forall rs,
      foldM filter_step (mkFrame h rs) filters = Ok (mkFrame h (List.filter p rs))).
Proof.
  intros Hd; induction filters as [|item filters IH]; cbn [foldM].
  - right; exists (fun _ => true); intros rs; rewrite filter_all; reflexivity.
  - destruct (filter_step_uniform h item Hd) as [[e He]|[p Hp]].
    + left; exists e; intros rs; rewrite He; reflexivity.
    + destruct IH as [[e He]|[q Hq]].
      * left; exists e; intros rs; rewrite Hp; cbn [mbind outcome_bind]; apply He.
      * right; exists (fun r => p r && q r); intros rs.
        rewrite Hp; cbn [mbind outcome_bind]; rewrite Hq, filter_both.
        reflexivity.
Qed.


(** X11. Filtering the table that [apply_filters] returned once more by the
    same criteria returns it unchanged. *)
Theorem filters_idempotent df filters d :
  date_typed df = true ->
  apply_filters df filters = Ok d -> apply_filters d filters = Ok d.
Proof.
  destruct df as [h rs]; intros Hd H; unfold apply_filters, copy in *.
  destruct (foldM_uniform filters h Hd) as [[e He]|[p Hp]].
  - rewrite He in H; discriminate H.
  - rewrite Hp in H; injection H as <-; rewrite Hp, filter_idem; reflexivity.
Qed.

Lemma foldM_filter_permutation filters filters' :
  Permutation filters filters' ->
  forall df d, date_typed df = true ->
    foldM filter_step df filters = Ok d -> foldM filter_step df filters' = Ok d.
Proof.
  induction 1 as [|x l l' _ IH|x y l|l l' l'' _ IH1 _ IH2]; intros df d Hd H.
  - exact H.
  - cbn [foldM] in *; apply bind_ok in H as (d1 & H1 & H2); rewrite H1.
    cbn [mbind outcome_bind]; apply IH; [|exact H2].
    rewrite (narrows_date_typed df d1 (filter_step_narrows _ _ _ H1)); exact Hd.
  - change (y :: x :: l) with ([y; x] ++ l) in H.
    change (x :: y :: l) with ([x; y] ++ l).
    rewrite foldM_app in *; apply bind_ok in H as (d2 & H1 & H2).
    rewrite (filter_step_swap df y x d2 Hd H1); exact H2.
  - apply IH2, IH1; assumption.
Qed.

(** X12. On a table whose DATE column, if any, holds parsed dates, the order
    in which the criteria are listed does not matter, however many they
    are: if one order returns a table, every other order returns the same
    table. *)
Theorem filters_any_order df filters filters' d :
  date_typed df = true -> Permutation filters filters' ->
  apply_filters df filters = Ok d -> apply_filters df filters' = Ok d.
Proof.
  intros Hd Hp; unfold apply_filters, copy.
  apply foldM_filter_permutation; assumption.
Qed.


Lemma in_columns_header df d col :
  header d = header df -> in_columns col d = in_columns col df.
Proof. intros Hh; unfold in_columns, columns; rewrite Hh; reflexivity. Qed.

(** X8. An item whose key is neither a label of the table nor one of the two
    special keys is passed over: wherever it stands among the criteria and
    whatever its criterion, removing it changes neither the table returned
    nor the exception raised. *)
Theorem absent_key_ignored df k c before after :
  in_columns k df = false -> k <> "DATE_RANGE" -> k <> "AWP_MACHINES" ->
  apply_filters df (before ++ (k, c) :: after)
  = apply_filters df (before ++ after).
Proof.
  intros Hk Hd Ha; unfold apply_filters, copy; rewrite !foldM_app.
  destruct (foldM filter_step df before) as [d|e] eqn:Hb; [|reflexivity].
  cbn [mbind outcome_bind foldM].
  assert (Hstep : filter_step d (k, c) = Ok d); [|rewrite Hstep; reflexivity].
  assert (Hkd : in_columns k d = false).
  { rewrite (in_columns_header df d); [exact Hk|].
    apply (apply_filters_narrows df before d Hb). }
  unfold filter_step.
  destruct (is_none c || _); [reflexivity|].
  apply String.eqb_neq in Hd, Ha; cbn [existsb]; rewrite Hkd, Hd, Ha.
  reflexivity.
Qed.

End EngineExtras.

(** ** The page *)

Section PageExtras.
Context {pandas : Pandas}.

Lemma foldM_step_ok df item rest d :
  filter_step df item = Ok d ->
  foldM filter_step df (item :: rest) = foldM filter_step d rest.
Proof. intros H; cbn [foldM]; rewrite H; reflexivity. Qed.










End PageExtras.

Section InitialView.
Context {pandas : Pandas}.

Lemma max_timestamp_bound dates hi :
  max_timestamp dates = Some hi ->
  Some hi ∈ dates /\ forall t, Some t ∈ dates -> (t <= hi)%Z.
Proof.
  revert hi; induction dates as [|[t|] dates IH]; intros hi; cbn [max_timestamp].
  - discriminate.
  - destruct (max_timestamp dates) as [m|] eqn:Hm.
    + intros [= <-]; destruct (IH m eq_refl) as [Hin Hle]; split.
      * destruct (Z.max_spec t m) as [[_ ->]|[_ ->]];
          [right; exact Hin | left].
      * intros t' Ht'; apply elem_of_cons in Ht' as [[= ->]|Ht'];
          [lia | specialize (Hle t' Ht'); lia].
    + intros [= <-]; split; [left|].
      intros t' Ht'; apply elem_of_cons in Ht' as [[= ->]|Ht']; [lia|].
      exfalso; clear IH; induction dates as [|[x|] dates IH];
        cbn [max_timestamp] in Hm.
      * inversion Ht'.
      * destruct (max_timestamp dates); discriminate.
      * apply elem_of_cons in Ht' as [Ht'|Ht']; [discriminate|auto].
  - intros H; destruct (IH hi H) as [Hin Hle]; split; [right; exact Hin|].
    intros t' Ht'; apply elem_of_cons in Ht' as [Ht'|Ht']; [discriminate|auto].
Qed.

Lemma min_timestamp_bound dates lo :
  min_timestamp dates = Some lo ->
  Some lo ∈ dates /\ forall t, Some t ∈ dates -> (lo <= t)%Z.
Proof.
  revert lo; induction dates as [|[t|] dates IH]; intros lo; cbn [min_timestamp].
  - discriminate.
  - destruct (min_timestamp dates) as [m|] eqn:Hm.
    + intros [= <-]; destruct (IH m eq_refl) as [Hin Hle]; split.
      * destruct (Z.min_spec t m) as [[_ ->]|[_ ->]];
          [left | right; exact Hin].
      * intros t' Ht'; apply elem_of_cons in Ht' as [[= ->]|Ht'];
          [lia | specialize (Hle t' Ht'); lia].
    + intros [= <-]; split; [left|].
      intros t' Ht'; apply elem_of_cons in Ht' as [[= ->]|Ht']; [lia|].
      exfalso; clear IH; induction dates as [|[x|] dates IH];
        cbn [min_timestamp] in Hm.
      * inversion Ht'.
      * destruct (min_timestamp dates); discriminate.
      * apply elem_of_cons in Ht' as [Ht'|Ht']; [discriminate|auto].
  - intros H; destruct (IH lo H) as [Hin Hle]; split; [right; exact Hin|].
    intros t' Ht'; apply elem_of_cons in Ht' as [Ht'|Ht']; [discriminate|auto].
Qed.

Lemma extremes_exist t dates :
  exists lo hi, min_timestamp (Some t :: dates) = Some lo /\
                max_timestamp (Some t :: dates) = Some hi.
Proof.
  cbn [min_timestamp max_timestamp].
  destruct (min_timestamp dates), (max_timestamp dates); eauto.
Qed.

Lemma midnight_le t : (date_of t * ns_per_day <= t)%Z.
Proof.
  unfold date_of; rewrite Z.mul_comm; apply Z.mul_div_le; reflexivity.
Qed.

Lemma date_of_midnight d : date_of (d * ns_per_day) = d.
Proof. unfold date_of; apply Z.div_mul; discriminate. Qed.

Lemma initial_steps d range :
  foldM filter_step d (tl (build_filters (initial_widgets range))) = Ok d.
Proof. reflexivity. Qed.

(** X15. The page as first drawn, on a loaded table that has rows and a DATE
    column of Timestamps: the slider starts at the days of the earliest and
    of the latest Timestamp, every other widget is empty, and the criteria
    built from them keep exactly the rows dated not later than the midnight
    that begins the latest day.  When every Timestamp is a midnight, that is
    the whole table. *)
Theorem initial_view df j today_range :
  index_of "DATE" (columns df) = Some j ->
  date_typed df = true ->
  rows df <> [] ->
  Forall (fun r => exists t, cell_at j r = Timestamp t) (rows df) ->
  let range := default_date_range (Some (date_column j df)) today_range in
  exists lo hi,
    min_timestamp (date_column j df) = Some lo /\
    max_timestamp (date_column j df) = Some hi /\
    range = (date_of lo, date_of hi) /\
    apply_filters df (build_filters (initial_widgets range))
    = Ok (keep (fun r => by_midnight_of (date_of hi) (cell_at j r)) df) /\
    (Forall (fun r => exists d, cell_at j r = Timestamp (d * ns_per_day))
            (rows df) ->
     apply_filters df (build_filters (initial_widgets range)) = Ok df).
Proof.
  intros Hj Hd Hne Hall range.
  assert (Hdates : exists t dates, date_column j df = Some t :: dates).
  { unfold date_column; destruct (rows df) as [|r rs]; [contradiction|].
    apply Forall_cons in Hall as [[t Ht] _]; cbn [map]; rewrite Ht; eauto. }
  destruct Hdates as (t0 & dates & Hdates).
  destruct (extremes_exist t0 dates) as (lo & hi & Hlo & Hhi).
  assert (Hrange : range = (date_of lo, date_of hi)).
  { unfold range, default_date_range; rewrite Hdates, Hlo, Hhi; reflexivity. }
  rewrite <- Hdates in Hlo, Hhi.
  destruct (min_timestamp_bound _ _ Hlo) as [_ Hmin].
  destruct (max_timestamp_bound _ _ Hhi) as [Hattained Hmax].
  assert (Hrun : apply_filters df (build_filters (initial_widgets range))
                 = Ok (keep (fun r => by_midnight_of (date_of hi) (cell_at j r)) df)).
  { rewrite Hrange; unfold apply_filters, copy.
    change (build_filters (initial_widgets (date_of lo, date_of hi)))
      with (("DATE_RANGE", py_dates (date_of lo, date_of hi))
            :: tl (build_filters (initial_widgets (date_of lo, date_of hi)))).
    rewrite (foldM_step_ok df _ _ (dated_within (date_of lo * ns_per_day)
                                     (date_of hi * ns_per_day) df)).
    - rewrite initial_steps; unfold dated_within, keep; rewrite Hj.
      f_equal; f_equal; apply filter_ext_in; intros r Hr.
      apply list_elem_of_In in Hr.
      destruct (proj1 (Forall_forall _ _) Hall r Hr) as [t Ht].
      rewrite Ht; cbn [in_range by_midnight_of].
      assert (Hin : Some t ∈ date_column j df).
      { unfold date_column; apply list_elem_of_fmap; exists r; rewrite Ht.
        split; [reflexivity | exact Hr]. }
      specialize (Hmin t Hin); pose proof (midnight_le lo) as Hfloor.
      replace (date_of lo * ns_per_day <=? t)%Z with true
        by (symmetry; apply Z.leb_le; lia).
      reflexivity.
    - apply date_range_step; try discriminate; try reflexivity; try assumption.
      apply (index_of_in_columns _ _ _ Hj). }
  exists lo, hi; repeat split; try assumption.
  intros Hmid; rewrite Hrun; unfold keep; destruct df as [h rs]; cbn [header rows] in *.
  f_equal; f_equal.
  assert (Hhi_mid : exists d, hi = (d * ns_per_day)%Z).
  { unfold date_column in Hattained; cbn [rows] in Hattained.
    apply list_elem_of_fmap in Hattained as (r & Hr & Hin).
    apply (proj1 (Forall_forall _ _) Hmid r) in Hin as [d Hcell].
    rewrite Hcell in Hr; injection Hr as ->; eauto. }
  destruct Hhi_mid as [dmax ->]; rewrite date_of_midnight.
  erewrite filter_ext_in; [apply filter_all|]; intros r Hr; cbn beta.
  apply list_elem_of_In in Hr.
  destruct (proj1 (Forall_forall _ _) Hmid r Hr) as [d Hcell]; rewrite Hcell.
  cbn [by_midnight_of]; apply Z.leb_le, Hmax.
  unfold date_column; cbn [rows]; apply list_elem_of_fmap; exists r.
  rewrite Hcell; split; [reflexivity | exact Hr].
Qed.

End InitialView.

(** ** More runs on the test double *)




Lemma load_data_date_typed_witness :
  load_data (pandas := Fixture.double) Fixture.shipments_file = Ok Fixture.loaded /\
  date_typed Fixture.loaded = true.
Proof.
  split; [reflexivity|].
  exact (load_data_date_typed (pandas := Fixture.double) Fixture.shipments_file
           Fixture.loaded eq_refl).
Defined.




Lemma absent_key_ignored_witness :
  in_columns "ADDRESS" Fixture.loaded = false /\
  apply_filters (pandas := Fixture.double) Fixture.loaded
    ([Fixture.by_date] ++ ("ADDRESS", CStr "road") :: [Fixture.by_name])
  = apply_filters (pandas := Fixture.double) Fixture.loaded
      ([Fixture.by_date] ++ [Fixture.by_name]).
Proof.
  split; [reflexivity|].
  apply (absent_key_ignored (pandas := Fixture.double) Fixture.loaded
           "ADDRESS" (CStr "road") [Fixture.by_date] [Fixture.by_name] eq_refl);
    discriminate.
Defined.

Lemma malformed_criteria_raise_witness :
  in_columns "DATE" Fixture.loaded = true /\
  apply_filters (pandas := Fixture.double) Fixture.loaded
    [("DATE_RANGE", CTuple [PyDate 19727])] = Raises IndexError /\
  in_columns "PRODUCT DESCRIPTION" Samples.machines = true /\
  apply_filters (pandas := Fixture.double) Samples.machines
    [("AWP_MACHINES", CList [PyNone; PyCell (Str "crane")])]
  = Raises AttributeError.
Proof.
  split; [reflexivity|]; split; [|split; [reflexivity|]].
  - apply (proj1 (malformed_criteria_raise (pandas := Fixture.double)
                    Fixture.loaded) eq_refl); discriminate.
  - apply (proj2 (malformed_criteria_raise (pandas := Fixture.double)
                    Samples.machines) eq_refl); discriminate.
Defined.


Lemma filters_idempotent_witness :
  date_typed Fixture.loaded = true /\
  apply_filters (pandas := Fixture.double) Fixture.loaded
    [Fixture.by_name; Fixture.by_date] = Ok Fixture.loaded_late_corp /\
  apply_filters (pandas := Fixture.double) Fixture.loaded_late_corp
    [Fixture.by_name; Fixture.by_date] = Ok Fixture.loaded_late_corp.
Proof.
  split; [reflexivity|]; split; [reflexivity|].
  exact (filters_idempotent (pandas := Fixture.double) Fixture.loaded
           [Fixture.by_name; Fixture.by_date] Fixture.loaded_late_corp
           eq_refl eq_refl).
Defined.

Lemma filters_any_order_witness :
  date_typed Fixture.loaded = true /\
  Permutation [Fixture.by_name; Fixture.by_date; Fixture.by_port]
              [Fixture.by_port; Fixture.by_name; Fixture.by_date] /\
  apply_filters (pandas := Fixture.double) Fixture.loaded
    [Fixture.by_name; Fixture.by_date; Fixture.by_port]
  = Ok Fixture.loaded_late_corp /\
  apply_filters (pandas := Fixture.double) Fixture.loaded
    [Fixture.by_port; Fixture.by_name; Fixture.by_date]
  = Ok Fixture.loaded_late_corp.
Proof.
  assert (Hp : Permutation [Fixture.by_name; Fixture.by_date; Fixture.by_port]
                           [Fixture.by_port; Fixture.by_name; Fixture.by_date]).
  { apply Permutation_sym, (Permutation_cons_append
                              [Fixture.by_name; Fixture.by_date] Fixture.by_port). }
  split; [reflexivity|]; split; [exact Hp|]; split; [reflexivity|].
  exact (filters_any_order (pandas := Fixture.double) Fixture.loaded _ _
           Fixture.loaded_late_corp eq_refl Hp eq_refl).
Defined.



Lemma initial_view_witness :
  index_of "DATE" (columns Fixture.loaded) = Some 1%nat /\
  date_typed Fixture.loaded = true /\
  default_date_range (Some (date_column 1 Fixture.loaded)) (19358, 19724)
  = (19727, 19783) /\
  apply_filters (pandas := Fixture.double) Fixture.loaded
    (build_filters (initial_widgets (19727, 19783))) = Ok Fixture.loaded.
Proof.
  assert (Hne : rows Fixture.loaded <> []) by discriminate.
  assert (Hall : Forall (fun r => exists t, cell_at 1 r = Timestamp t)
                        (rows Fixture.loaded)).
  { repeat constructor; eexists; reflexivity. }
  assert (Hmid : Forall (fun r => exists d, cell_at 1 r = Timestamp (d * ns_per_day))
                        (rows Fixture.loaded)).
  { repeat constructor; eexists; reflexivity. }
  destruct (initial_view (pandas := Fixture.double) Fixture.loaded 1
              (19358, 19724) eq_refl eq_refl Hne Hall)
    as (lo & hi & _ & _ & _ & _ & Hwhole).
  split; [reflexivity|]; split; [reflexivity|]; split; [reflexivity|].
  exact (Hwhole Hmid).
Defined.
